(** * The relationship-network page: data loader and graph projector

    A shallow embedding of the [NetworkPage] component: the view state it
    keeps, the loader that fills it from three fetches, the projection of
    (subject, relationships, roster) to the nodes and edges handed to the
    diagram and to the sidebar list, the diagram effect with its two data
    sets, and the two click handlers. *)

From stdpp Require Import base option list strings.

Local Open Scope string_scope.
Local Open Scope list_scope.

(** ** Data model *)

(** Modelled from the spec: the type declarations of [types/index]
    ([Person], [Relationship], [NetworkNode], [NetworkEdge]) are imported by
    the component; the records below carry the fields the component reads
    and writes. [alias] is optional, as the access [person.alias?.[0]]
    shows. *)
Module Person.
Record t : Type := mk {
  id : string;
  name : string;
  alias : option (list string)
}.
End Person.

Module Relationship.
Record t : Type := mk {
  id : string;
  person1Id : string;
  person2Id : string;
  description : string
}.
End Relationship.

Module NetworkNode.
Record t : Type := mk {
  id : string;
  label : string;
  title : string;
  color : string;
  group : string
}.
End NetworkNode.

Module NetworkEdge.
Record t : Type := mk {
  id : string;
  from : string;
  to : string;
  label : string;
  color : string;
  arrows : string
}.
End NetworkEdge.

(** An entry of the sidebar list, [{ relationship: rel, person: targetPerson }];
    [person] is [undefined] when the roster lookup fails. *)
Module RelatedItem.
Record t : Type := mk {
  relationship : Relationship.t;
  person : option Person.t
}.
End RelatedItem.

#[global] Instance Person_eq_dec : EqDecision Person.t.
Proof. solve_decision. Defined.
#[global] Instance Relationship_eq_dec : EqDecision Relationship.t.
Proof. solve_decision. Defined.
#[global] Instance NetworkNode_eq_dec : EqDecision NetworkNode.t.
Proof. solve_decision. Defined.
#[global] Instance NetworkEdge_eq_dec : EqDecision NetworkEdge.t.
Proof. solve_decision. Defined.
#[global] Instance RelatedItem_eq_dec : EqDecision RelatedItem.t.
Proof. solve_decision. Defined.

(** ** Graph projector *)

(** [alias?.[0] || ""]: the first alternate name, the empty string when
    there is no list, when the list is empty, or when its head is empty. *)
Definition firstAlias (p : Person.t) : string :=
  match Person.alias p with
  | Some (a :: _) => a
  | _ => ""
  end.

(** [rel.person1Id === person.id ? rel.person2Id : rel.person1Id] *)
Definition targetPersonId (person : Person.t) (rel : Relationship.t) : string :=
  if String.eqb (Relationship.person1Id rel) (Person.id person)
  then Relationship.person2Id rel
  else Relationship.person1Id rel.

(** [allPeople.find(p => p.id === targetPersonId)] *)
Definition findPerson (allPeople : list Person.t) (target : string)
  : option Person.t :=
  List.find (fun p => String.eqb (Person.id p) target) allPeople.

Definition targetPerson (person : Person.t) (allPeople : list Person.t)
    (rel : Relationship.t) : option Person.t :=
  findPerson allPeople (targetPersonId person rel).

Definition centerNode (person : Person.t) : NetworkNode.t :=
  {| NetworkNode.id := Person.id person;
     NetworkNode.label := Person.name person;
     NetworkNode.title := firstAlias person;
     NetworkNode.color := "#ff6b6b";
     NetworkNode.group := "center" |}.

Definition relatedNode (tp : Person.t) : NetworkNode.t :=
  {| NetworkNode.id := Person.id tp;
     NetworkNode.label := Person.name tp;
     NetworkNode.title := firstAlias tp;
     NetworkNode.color := "#4ecdc4";
     NetworkNode.group := "related" |}.

(** The body of [relationships.forEach(rel => ...)]: one [push] when the
    counterpart is found in the roster, nothing otherwise. *)
Definition pushRelated (person : Person.t) (allPeople : list Person.t)
    (acc : list NetworkNode.t) (rel : Relationship.t) : list NetworkNode.t :=
  match targetPerson person allPeople rel with
  | Some tp => acc ++ [relatedNode tp]
  | None => acc
  end.

(** [nodes]: the array seeded with the subject's node, then mutated by the
    [forEach] loop. *)
Definition nodes (person : Person.t) (relationships : list Relationship.t)
    (allPeople : list Person.t) : list NetworkNode.t :=
  fold_left (pushRelated person allPeople) relationships [centerNode person].

Definition edgeOf (person : Person.t) (rel : Relationship.t) : NetworkEdge.t :=
  {| NetworkEdge.id := Relationship.id rel;
     NetworkEdge.from := Person.id person;
     NetworkEdge.to := targetPersonId person rel;
     NetworkEdge.label := Relationship.description rel;
     NetworkEdge.color := "#667eea";
     NetworkEdge.arrows := "to" |}.

(** [edges = relationships.map(rel => ...)]: no roster lookup on this path. *)
Definition edges (person : Person.t) (relationships : list Relationship.t)
  : list NetworkEdge.t :=
  map (edgeOf person) relationships.

Definition itemOf (person : Person.t) (allPeople : list Person.t)
    (rel : Relationship.t) : RelatedItem.t :=
  {| RelatedItem.relationship := rel;
     RelatedItem.person := targetPerson person allPeople rel |}.

(** [.filter(item => item.person)]: an object is truthy, [undefined] is not. *)
Definition hasPerson (item : RelatedItem.t) : bool :=
  match RelatedItem.person item with Some _ => true | None => false end.

Definition getRelatedPeople (person : Person.t)
    (relationships : list Relationship.t) (allPeople : list Person.t)
  : list RelatedItem.t :=
  List.filter hasPerson (map (itemOf person allPeople) relationships).

(** The scenario of the specification. *)
Definition alice : Person.t := Person.mk "P1" "Alice" None.
Definition bob : Person.t := Person.mk "P2" "Bob" None.
Definition friendship : Relationship.t := Relationship.mk "R1" "P1" "P2" "friend".
Definition marriage : Relationship.t := Relationship.mk "R2" "P2" "P1" "spouse".

(** A third person and a relationship that does not name Alice at all. *)
Definition carol : Person.t := Person.mk "P3" "Carol" (Some ["Caz"]).
Definition kinship : Relationship.t := Relationship.mk "R3" "P3" "P2" "sibling".

(** The nodes classified "center". *)
Definition isCenter (n : NetworkNode.t) : bool :=
  String.eqb (NetworkNode.group n) "center".

(** ** View state and data loader *)

(** The five [useState] cells of the component. *)
Record ViewState : Type := mkViewState {
  person : option Person.t;
  relationships : list Relationship.t;
  allPeople : list Person.t;
  loading : bool;
  error : option string
}.

(** State on first mount: [null], [[]], [[]], [true], [null]. *)
Definition initialState : ViewState :=
  {| person := None; relationships := []; allPeople := [];
     loading := true; error := None |}.

Definition setPerson (v : option Person.t) (s : ViewState) : ViewState :=
  {| person := v; relationships := relationships s; allPeople := allPeople s;
     loading := loading s; error := error s |}.

Definition setRelationships (v : list Relationship.t) (s : ViewState) : ViewState :=
  {| person := person s; relationships := v; allPeople := allPeople s;
     loading := loading s; error := error s |}.

Definition setAllPeople (v : list Person.t) (s : ViewState) : ViewState :=
  {| person := person s; relationships := relationships s; allPeople := v;
     loading := loading s; error := error s |}.

Definition setLoading (v : bool) (s : ViewState) : ViewState :=
  {| person := person s; relationships := relationships s;
     allPeople := allPeople s; loading := v; error := error s |}.

Definition setError (v : option string) (s : ViewState) : ViewState :=
  {| person := person s; relationships := relationships s;
     allPeople := allPeople s; loading := loading s; error := v |}.

(** Truthiness of a [string | null | undefined] value: only a non-empty
    string is truthy. *)
Definition truthy (v : option string) : bool :=
  match v with
  | Some s => negb (String.eqb s "")
  | None => false
  end.

(** What [Promise.all] of the three fetches settles to: the three results,
    where [getPersonById] resolves to [null] for an unknown id, or a
    rejection when any of the three rejects. *)
Inductive FetchOutcome : Type :=
  | Resolved (personData : option Person.t)
             (relationshipsData : list Relationship.t)
             (allPeopleData : list Person.t)
  | Rejected.

Definition personNotFound : string := "未找到该人物信息".
Definition loadFailed : string := "加载数据失败".

(** The part of [loadData] before the [await]. *)
Definition loadDataBegin (s : ViewState) : ViewState :=
  setError None (setLoading true s).

(** The part of [loadData] after the [await]: the [try] body or the [catch]
    handler, then the [finally] block. *)
Definition loadDataSettle (o : FetchOutcome) (s : ViewState) : ViewState :=
  let s' :=
    match o with
    | Resolved None _ _ => setError (Some personNotFound) s
    | Resolved (Some personData) relationshipsData allPeopleData =>
        setAllPeople allPeopleData
          (setRelationships relationshipsData
             (setPerson (Some personData) s))
    | Rejected => setError (Some loadFailed) s
    end in
  setLoading false s'.

(** [loadData] for the route parameter [id] and the outcome of its fetches;
    [if (!id) return] leaves the state untouched. *)
Definition loadData (id : option string) (o : FetchOutcome) (s : ViewState)
  : ViewState :=
  if truthy id then loadDataSettle o (loadDataBegin s) else s.

(** ** Rendering *)

(** The three returns of the component function: the spinner, the error
    panel with its message, and the page with the diagram's mount point and
    the sidebar list. *)
Inductive View : Type :=
  | LoadingView
  | ErrorView (message : string)
  | ReadyView (subject : Person.t) (relatedPeople : list RelatedItem.t).

(** [error || d] on a [string | null]. *)
Definition orElse (v : option string) (d : string) : string :=
  match v with
  | Some s => if String.eqb s "" then d else s
  | None => d
  end.

Definition render (s : ViewState) : View :=
  if loading s then LoadingView
  else
    match person s with
    | Some p =>
        if truthy (error s) then ErrorView (orElse (error s) personNotFound)
        else ReadyView p (getRelatedPeople p (relationships s) (allPeople s))
    | None => ErrorView (orElse (error s) personNotFound)
    end.

(** [networkRef.current] after a render is committed: the mount point exists
    only in the page view. *)
Definition mountPoint (v : View) : bool :=
  match v with ReadyView _ _ => true | _ => false end.

(** The data handed to [new Network(...)]. *)
Record Diagram : Type := mkDiagram {
  diagramNodes : list NetworkNode.t;
  diagramEdges : list NetworkEdge.t
}.

(** The component with its two refs, the navigation requests made so far,
    and whether React has removed the component from the screen. *)
Record World : Type := mkWorld {
  state : ViewState;
  networkRef : bool;
  networkInstance : option Diagram;
  navigations : list string;
  tornDown : bool
}.

(** A render of state [s] is committed: React points [networkRef.current]
    at the mount point when the page view is shown and clears it otherwise;
    the network instance and the navigation requests are not touched. A
    component that has been removed renders nothing any more. *)
Definition commit (s : ViewState) (w : World) : World :=
  if tornDown w then w
  else
    {| state := s; networkRef := mountPoint (render s);
       networkInstance := networkInstance w; navigations := navigations w;
       tornDown := false |}.

(** [new DataSet(items)] of the imported [vis-data] package: the items are
    added one after the other, and adding an item whose identifier is
    already in the set throws; [None] stands for the thrown error. *)
Fixpoint addItems {A : Type} (idOf : A -> string) (items store : list A)
  : option (list A) :=
  match items with
  | [] => Some store
  | item :: rest =>
      if existsb (fun old => String.eqb (idOf old) (idOf item)) store
      then None
      else addItems idOf rest (store ++ [item])
  end.

Definition newDataSet {A : Type} (idOf : A -> string) (items : list A)
  : option (list A) :=
  addItems idOf items [].

(** How a run of the diagram effect ends: it returns early, it stores a new
    network, or one of the two [new DataSet] calls throws. *)
Inductive EffectOutcome : Type :=
  | Skipped
  | Built (d : Diagram)
  | Threw.

(** The body of the diagram effect: return early without a subject or a
    mount point, otherwise build the node and edge arrays, put each into a
    [DataSet] and hand both to [new Network]. *)
Definition networkEffect (w : World) : EffectOutcome :=
  if tornDown w then Skipped
  else
    match person (state w) with
    | Some p =>
        if networkRef w then
          match newDataSet NetworkNode.id
                  (nodes p (relationships (state w)) (allPeople (state w))) with
          | Some nodesDataSet =>
              match newDataSet NetworkEdge.id
                      (edges p (relationships (state w))) with
              | Some edgesDataSet =>
                  Built {| diagramNodes := nodesDataSet;
                           diagramEdges := edgesDataSet |}
              | None => Threw
              end
          | None => Threw
          end
        else Skipped
    | None => Skipped
    end.

(** Nothing in the component catches an error thrown by an effect, so React
    removes the whole component: no mount point, no page, no listener. *)
Definition tearDown (w : World) : World :=
  {| state := state w; networkRef := false;
     networkInstance := networkInstance w; navigations := navigations w;
     tornDown := true |}.

(** The diagram effect as a step of the component: a built network is
    stored in [networkInstance.current]. *)
Definition createNetwork (w : World) : World :=
  match networkEffect w with
  | Skipped => w
  | Built d =>
      {| state := state w; networkRef := networkRef w;
         networkInstance := Some d; navigations := navigations w;
         tornDown := tornDown w |}
  | Threw => tearDown w
  end.

(** The effect's cleanup: destroy the network and clear the ref. *)
Definition destroyNetwork (w : World) : World :=
  {| state := state w; networkRef := networkRef w;
     networkInstance := None; navigations := navigations w;
     tornDown := tornDown w |}.

(** The sidebar list on the screen: the list of the current render, empty
    outside the page view and once the component has been removed. *)
Definition sidebar (w : World) : list RelatedItem.t :=
  if tornDown w then []
  else
    match render (state w) with
    | ReadyView _ relatedPeople => relatedPeople
    | _ => []
    end.

(** ** Click handlers *)

(** [navigate(`/person/${id}`)]: one more navigation request. *)
Definition navigate (path : string) (log : list string) : list string :=
  log ++ [path].

Definition personPath (id : string) : string := "/person/" +:+ id.

(** The event the diagram passes to the click listener; [nodes] holds the
    identifiers of the nodes under the pointer. *)
Record ClickParams : Type := mkClickParams {
  clickNodes : list string
}.

(** The [click] listener registered on the network for subject [person]. *)
Definition onClick (person : Person.t) (params : ClickParams)
    (log : list string) : list string :=
  match clickNodes params with
  | nodeId :: _ =>
      if negb (String.eqb nodeId (Person.id person))
      then navigate (personPath nodeId) log
      else log
  | [] => log
  end.



(** ** The projection, relationship by relationship

    What one relationship contributes to each of the three results; the
    lemmas below show that the loop and the [map]/[filter] chain of the
    source compute exactly these, in order. *)

(** The node a relationship contributes, if any. *)
Definition nodeOf (subject : Person.t) (roster : list Person.t)
    (rel : Relationship.t) : option NetworkNode.t :=
  relatedNode <$> targetPerson subject roster rel.

(** The sidebar entry a relationship contributes, if any. *)
Definition entryOf (subject : Person.t) (roster : list Person.t)
    (rel : Relationship.t) : option RelatedItem.t :=
  (fun p => RelatedItem.mk rel (Some p)) <$> targetPerson subject roster rel.

(** Whether the relationship's counterpart is in the roster. *)
Definition resolved (subject : Person.t) (roster : list Person.t)
    (rel : Relationship.t) : bool :=
  match targetPerson subject roster rel with Some _ => true | None => false end.

(** ** Overlapping loads

    [loadData] is asynchronous: the part before the [await] runs when the
    effect fires, the part after it when the fetches settle, and nothing
    cancels a load whose identifier has been replaced. A history of the
    component is therefore a sequence of these two kinds of segment, in any
    interleaving. *)
Inductive LoadEvent : Type :=
  | Begin
  | Settle (o : FetchOutcome).

Definition loadStep (s : ViewState) (e : LoadEvent) : ViewState :=
  match e with
  | Begin => loadDataBegin s
  | Settle o => loadDataSettle o s
  end.

Definition runLoads (es : list LoadEvent) (s : ViewState) : ViewState :=
  fold_left loadStep es s.

(** ** The sidebar card *)

(** [relatedPeople.length > 0 ? <List .../> : <placeholder/>]: the list of
    entries, or the "no relationship data" placeholder. *)
Inductive SidebarContent : Type :=
  | RelatedList (items : list RelatedItem.t)
  | NoRelationData.

Definition sidebarContent (relatedPeople : list RelatedItem.t) : SidebarContent :=
  if Nat.ltb 0 (length relatedPeople) then RelatedList relatedPeople
  else NoRelationData.


(** ** The projection in the specification's words

    The expected results, written from the specification's words and not from
    the component's functions: the counterpart identifier of a relationship,
    the person of the roster that carries an identifier, and the three lists
    in the order of the relationship list. The code's functions are compared
    with these. *)
Module Spec.

(** The endpoint that is not the subject's identifier: the second endpoint
    when the first is the subject, the first endpoint otherwise. *)
Definition counterpart (subjectId : string) (rel : Relationship.t) : string :=
  if decide (Relationship.person1Id rel = subjectId)
  then Relationship.person2Id rel
  else Relationship.person1Id rel.

(** The roster holds a person with this identifier. *)
Definition inRoster (roster : list Person.t) (target : string) : Prop :=
  Exists (fun p => Person.id p = target) roster.

(** The first person of the roster with this identifier. *)
Definition lookup (roster : list Person.t) (target : string) : option Person.t :=
  head (filter (fun p => Person.id p = target) roster).

(** The first alternate name, or the empty string. *)
Definition tooltip (p : Person.t) : string :=
  default "" (Person.alias p ≫= head).

Definition center (subject : Person.t) : NetworkNode.t :=
  NetworkNode.mk (Person.id subject) (Person.name subject) (tooltip subject)
    "#ff6b6b" "center".

Definition related (p : Person.t) : NetworkNode.t :=
  NetworkNode.mk (Person.id p) (Person.name p) (tooltip p) "#4ecdc4" "related".

(** The subject's node, then one node per relationship whose counterpart is
    in the roster, in the order of the relationship list. *)
Definition nodes (subject : Person.t) (rels : list Relationship.t)
    (roster : list Person.t) : list NetworkNode.t :=
  center subject
  :: omap (fun rel =>
             related <$> lookup roster (counterpart (Person.id subject) rel))
       rels.

(** One edge per relationship, from the subject to the counterpart, in the
    order of the relationship list. *)
Definition edges (subject : Person.t) (rels : list Relationship.t)
  : list NetworkEdge.t :=
  (fun rel =>
     NetworkEdge.mk (Relationship.id rel) (Person.id subject)
       (counterpart (Person.id subject) rel) (Relationship.description rel)
       "#667eea" "to") <$> rels.

(** One entry per relationship whose counterpart is in the roster, in the
    order of the relationship list. *)
Definition sidebar (subject : Person.t) (rels : list Relationship.t)
    (roster : list Person.t) : list RelatedItem.t :=
  omap (fun rel =>
          (fun p => RelatedItem.mk rel (Some p))
          <$> lookup roster (counterpart (Person.id subject) rel))
    rels.

End Spec.

#[global] Instance inRoster_dec (roster : list Person.t) (target : string) :
  Decision (Spec.inRoster roster target).
Proof. unfold Spec.inRoster. apply _. Defined.

(** ** The projection with its array written out

    [nodes] is an array that the loop changes in place with [push]. Here the
    arrays of nodes live in a store, addressed by their position; a run of
    the projection allocates its array, pushes into it and reads it back,
    starting from whatever earlier runs have left in the store. *)
Definition Arrays : Type := list (list NetworkNode.t).

Definition M (A : Type) : Type := Arrays -> A * Arrays.

Definition ret {A : Type} (x : A) : M A := fun h => (x, h).

Definition bind {A B : Type} (m : M A) (k : A -> M B) : M B :=
  fun h => let '(x, h') := m h in k x h'.

(** [const nodes = [first]] *)
Definition newArray (first : NetworkNode.t) : M nat :=
  fun h => (length h, h ++ [[first]]).

(** [array.push(n)] *)
Definition push (array : nat) (n : NetworkNode.t) : M unit :=
  fun h => (tt, alter (fun a => a ++ [n]) array h).

Definition readArray (array : nat) : M (list NetworkNode.t) :=
  fun h => (default [] (h !! array), h).

(** [xs.forEach(f)] *)
Fixpoint forEach {A : Type} (xs : list A) (f : A -> M unit) : M unit :=
  match xs with
  | [] => ret tt
  | x :: rest => bind (f x) (fun _ => forEach rest f)
  end.

(** The three results of one run. *)
Record Projection : Type := mkProjection {
  projNodes : list NetworkNode.t;
  projEdges : list NetworkEdge.t;
  projSidebar : list RelatedItem.t
}.

(** One run of the projection: the node array is allocated and filled by the
    loop, the edge list and the sidebar list come from [map] and [filter],
    which build new arrays and change nothing. *)
Definition project (person : Person.t) (relationships : list Relationship.t)
    (allPeople : list Person.t) : M Projection :=
  bind (newArray (centerNode person)) (fun array =>
  bind (forEach relationships (fun rel =>
          match targetPerson person allPeople rel with
          | Some tp => push array (relatedNode tp)
          | None => ret tt
          end)) (fun _ =>
  bind (readArray array) (fun contents =>
  ret {| projNodes := contents;
         projEdges := edges person relationships;
         projSidebar := getRelatedPeople person relationships allPeople |}))).

(** * Properties *)

Example scenario_nodes :
  nodes alice [friendship] [alice; bob] = [centerNode alice; relatedNode bob].
Proof. reflexivity. Qed.

Example scenario_edges :
  edges alice [friendship]
  = [NetworkEdge.mk "R1" "P1" "P2" "friend" "#667eea" "to"].
Proof. reflexivity. Qed.

Example scenario_sidebar :
  getRelatedPeople alice [friendship] [alice; bob]
  = [RelatedItem.mk friendship (Some bob)].
Proof. reflexivity. Qed.

(** ** The roster lookup *)

Lemma findPerson_Some (allPeople : list Person.t) (target : string) (p : Person.t) :
  findPerson allPeople target = Some p ->
  In p allPeople /\ Person.id p = target.
Proof.
  unfold findPerson. intros Hfind.
  apply find_some in Hfind as [Hin Heq].
  split; [exact Hin|]. by apply String.eqb_eq.
Qed.

Lemma findPerson_None (allPeople : list Person.t) (target : string) :
  findPerson allPeople target = None <->
  forall p, In p allPeople -> Person.id p <> target.
Proof.
  unfold findPerson. split.
  - intros Hnone p Hin Heq.
    pose proof (find_none _ _ Hnone p Hin) as Hneq. simpl in Hneq.
    apply String.eqb_neq in Hneq. contradiction.
  - intros Hall.
    induction allPeople as [|q roster IH]; [reflexivity|]. simpl.
    destruct (String.eqb (Person.id q) target) eqn:Heq.
    + apply String.eqb_eq in Heq. exfalso. apply (Hall q); [by left|exact Heq].
    + apply IH. intros p Hin. apply Hall. by right.
Qed.

Lemma targetPersonId_subject_first (person : Person.t) (rel : Relationship.t) :
  Relationship.person1Id rel = Person.id person ->
  targetPersonId person rel = Relationship.person2Id rel.
Proof.
  intros Heq. unfold targetPersonId. by rewrite Heq, String.eqb_refl.
Qed.

Lemma targetPersonId_subject_not_first (person : Person.t) (rel : Relationship.t) :
  Relationship.person1Id rel <> Person.id person ->
  targetPersonId person rel = Relationship.person1Id rel.
Proof.
  intros Hne. unfold targetPersonId.
  apply String.eqb_neq in Hne. by rewrite Hne.
Qed.

(** ** The code's functions against the specification's words *)

Lemma targetPersonId_counterpart (subject : Person.t) (rel : Relationship.t) :
  targetPersonId subject rel = Spec.counterpart (Person.id subject) rel.
Proof.
  unfold targetPersonId, Spec.counterpart.
  destruct (decide (Relationship.person1Id rel = Person.id subject)) as [Heq|Hne].
  - apply String.eqb_eq in Heq. by rewrite Heq.
  - apply String.eqb_neq in Hne. by rewrite Hne.
Qed.

Lemma findPerson_lookup (roster : list Person.t) (target : string) :
  findPerson roster target = Spec.lookup roster target.
Proof.
  unfold findPerson, Spec.lookup.
  induction roster as [|q roster IH]; [reflexivity|]. cbn [find].
  destruct (decide (Person.id q = target)) as [Heq|Hne].
  - rewrite filter_cons_True by exact Heq.
    apply String.eqb_eq in Heq. by rewrite Heq.
  - rewrite filter_cons_False by exact Hne.
    apply String.eqb_neq in Hne. by rewrite Hne.
Qed.

Lemma lookup_inRoster (roster : list Person.t) (target : string) :
  is_Some (Spec.lookup roster target) <-> Spec.inRoster roster target.
Proof.
  unfold Spec.lookup, Spec.inRoster. rewrite Exists_exists. split.
  - intros [p Hp]. apply head_Some_elem_of, list_elem_of_filter in Hp as [Hid Hin].
    by exists p.
  - intros (p & Hin & Hid).
    destruct (filter (fun p => Person.id p = target) roster) as [|q l] eqn:Hf.
    + assert (p ∈ filter (fun p => Person.id p = target) roster) as Hp
        by (by apply list_elem_of_filter).
      rewrite Hf in Hp. by apply elem_of_nil in Hp.
    + by exists q.
Qed.

Lemma firstAlias_tooltip (p : Person.t) : firstAlias p = Spec.tooltip p.
Proof.
  unfold firstAlias, Spec.tooltip. by destruct (Person.alias p) as [[|a l]|].
Qed.

Lemma centerNode_center (subject : Person.t) :
  centerNode subject = Spec.center subject.
Proof. unfold centerNode, Spec.center. by rewrite firstAlias_tooltip. Qed.

Lemma relatedNode_related (p : Person.t) : relatedNode p = Spec.related p.
Proof. unfold relatedNode, Spec.related. by rewrite firstAlias_tooltip. Qed.

Lemma targetPerson_lookup (subject : Person.t) (roster : list Person.t)
    (rel : Relationship.t) :
  targetPerson subject roster rel
  = Spec.lookup roster (Spec.counterpart (Person.id subject) rel).
Proof.
  unfold targetPerson. by rewrite targetPersonId_counterpart, findPerson_lookup.
Qed.

(** ** The data sets *)



(** ** The loop as a list comprehension *)

Section Projection.
Variable subject : Person.t.
Variable roster : list Person.t.

Lemma forEach_push (rels : list Relationship.t) (acc : list NetworkNode.t) :
  fold_left (pushRelated subject roster) rels acc = acc ++ omap (nodeOf subject roster) rels.
Proof.
  revert acc. induction rels as [|rel rels IH]; intros acc; simpl.
  - by rewrite app_nil_r.
  - rewrite IH. unfold pushRelated, nodeOf.
    destruct (targetPerson subject roster rel) as [tp|]; simpl.
    + by rewrite <- app_assoc.
    + reflexivity.
Qed.

Lemma nodes_unfold (rels : list Relationship.t) :
  nodes subject rels roster = centerNode subject :: omap (nodeOf subject roster) rels.
Proof. unfold nodes. by rewrite forEach_push. Qed.

Lemma nodes_app (rels1 rels2 : list Relationship.t) :
  nodes subject (rels1 ++ rels2) roster
  = nodes subject rels1 roster ++ omap (nodeOf subject roster) rels2.
Proof. rewrite !nodes_unfold, omap_app. reflexivity. Qed.

Lemma getRelatedPeople_cons (rel : Relationship.t) (rels : list Relationship.t) :
  getRelatedPeople subject (rel :: rels) roster
  = match targetPerson subject roster rel with
    | Some p => RelatedItem.mk rel (Some p) :: getRelatedPeople subject rels roster
    | None => getRelatedPeople subject rels roster
    end.
Proof.
  unfold getRelatedPeople. cbn [map List.filter].
  unfold hasPerson at 1, itemOf at 1 2. cbn [RelatedItem.person].
  by destruct (targetPerson subject roster rel).
Qed.

Lemma getRelatedPeople_omap (rels : list Relationship.t) :
  getRelatedPeople subject rels roster = omap (entryOf subject roster) rels.
Proof.
  induction rels as [|rel rels IH]; [reflexivity|].
  rewrite getRelatedPeople_cons. cbn [omap list_omap]. unfold entryOf at 1.
  destruct (targetPerson subject roster rel); simpl; by rewrite IH.
Qed.

Lemma getRelatedPeople_relationships (rels : list Relationship.t) :
  map RelatedItem.relationship (getRelatedPeople subject rels roster)
  = List.filter (resolved subject roster) rels.
Proof.
  induction rels as [|rel rels IH]; [reflexivity|].
  rewrite getRelatedPeople_cons. cbn [List.filter]. unfold resolved at 1.
  destruct (targetPerson subject roster rel); simpl; by rewrite IH.
Qed.

Lemma related_ids (rels : list Relationship.t) :
  map NetworkNode.id (omap (nodeOf subject roster) rels)
  = List.filter (fun t => bool_decide (is_Some (findPerson roster t)))
      (map (targetPersonId subject) rels).
Proof.
  induction rels as [|rel rels IH]; [reflexivity|].
  cbn [omap list_omap map List.filter]. unfold nodeOf at 1, targetPerson.
  destruct (findPerson roster (targetPersonId subject rel)) as [tp|] eqn:Hfind.
  - apply findPerson_Some in Hfind as [_ Hid].
    rewrite bool_decide_true by eauto.
    cbn [fmap option_fmap option_map map relatedNode NetworkNode.id].
    by rewrite Hid, IH.
  - rewrite bool_decide_false by (by intros [? ?]). exact IH.
Qed.

Lemma nodes_ids (rels : list Relationship.t) :
  map NetworkNode.id (nodes subject rels roster)
  = Person.id subject
    :: List.filter (fun t => bool_decide (is_Some (findPerson roster t)))
         (map (targetPersonId subject) rels).
Proof. rewrite nodes_unfold. cbn [map]. by rewrite related_ids. Qed.

End Projection.

Lemma related_nodes_cons (subject : Person.t) (roster : list Person.t)
    (rel : Relationship.t) (rels : list Relationship.t) :
  omap (nodeOf subject roster) (rel :: rels)
  = match targetPerson subject roster rel with
    | Some tp => relatedNode tp :: omap (nodeOf subject roster) rels
    | None => omap (nodeOf subject roster) rels
    end.
Proof.
  cbn [omap list_omap]. unfold nodeOf at 1.
  by destruct (targetPerson subject roster rel).
Qed.

(** ** The three lists against the specification's words *)

Lemma nodes_spec (subject : Person.t) (rels : list Relationship.t)
    (roster : list Person.t) :
  nodes subject rels roster = Spec.nodes subject rels roster.
Proof.
  rewrite nodes_unfold. unfold Spec.nodes. rewrite centerNode_center. f_equal.
  apply list_omap_ext, Forall2_same_length_lookup_2; [reflexivity|].
  intros i rel rel' Hrel Hrel'. simplify_eq.
  unfold nodeOf. rewrite targetPerson_lookup.
  destruct (Spec.lookup roster (Spec.counterpart (Person.id subject) rel));
    [|reflexivity].
  cbn [fmap option_fmap option_map]. by rewrite relatedNode_related.
Qed.

Lemma edges_spec (subject : Person.t) (rels : list Relationship.t) :
  edges subject rels = Spec.edges subject rels.
Proof.
  unfold edges, Spec.edges. apply map_ext. intros rel.
  unfold edgeOf. by rewrite targetPersonId_counterpart.
Qed.

Lemma getRelatedPeople_spec (subject : Person.t) (rels : list Relationship.t)
    (roster : list Person.t) :
  getRelatedPeople subject rels roster = Spec.sidebar subject rels roster.
Proof.
  rewrite getRelatedPeople_omap. unfold Spec.sidebar.
  apply list_omap_ext, Forall2_same_length_lookup_2; [reflexivity|].
  intros i rel rel' Hrel Hrel'. simplify_eq.
  unfold entryOf. by rewrite targetPerson_lookup.
Qed.

Lemma nodes_ids_spec (subject : Person.t) (rels : list Relationship.t)
    (roster : list Person.t) :
  map NetworkNode.id (nodes subject rels roster)
  = Person.id subject
    :: filter (Spec.inRoster roster)
         (Spec.counterpart (Person.id subject) <$> rels).
Proof.
  rewrite nodes_unfold. cbn [map]. f_equal.
  induction rels as [|rel rels IH]; [reflexivity|].
  rewrite related_nodes_cons, fmap_cons, targetPerson_lookup.
  destruct (Spec.lookup roster (Spec.counterpart (Person.id subject) rel))
    as [p|] eqn:Hlookup.
  - assert (Person.id p = Spec.counterpart (Person.id subject) rel) as Hid.
    { rewrite <- findPerson_lookup in Hlookup.
      by apply findPerson_Some in Hlookup as [_ ?]. }
    rewrite filter_cons_True by (apply lookup_inRoster; by rewrite Hlookup).
    cbn [map relatedNode NetworkNode.id]. by rewrite Hid, IH.
  - rewrite filter_cons_False; [exact IH|].
    intros Hin. apply lookup_inRoster in Hin as [? Hin]. congruence.
Qed.

Lemma edges_ids (subject : Person.t) (rels : list Relationship.t) :
  map NetworkEdge.id (edges subject rels) = Relationship.id <$> rels.
Proof. unfold edges. rewrite map_map. reflexivity. Qed.

Lemma sidebar_relationships_spec (subject : Person.t)
    (rels : list Relationship.t) (roster : list Person.t) :
  map RelatedItem.relationship (getRelatedPeople subject rels roster)
  = filter (fun rel =>
              Spec.inRoster roster (Spec.counterpart (Person.id subject) rel))
      rels.
Proof.
  induction rels as [|rel rels IH]; [reflexivity|].
  rewrite getRelatedPeople_cons, targetPerson_lookup.
  destruct (Spec.lookup roster (Spec.counterpart (Person.id subject) rel))
    as [p|] eqn:Hlookup.
  - rewrite filter_cons_True by (apply lookup_inRoster; by rewrite Hlookup).
    cbn [map RelatedItem.relationship]. by rewrite IH.
  - rewrite filter_cons_False; [exact IH|].
    intros Hin. apply lookup_inRoster in Hin as [? Hin]. congruence.
Qed.

(** ** Relationships whose counterpart is not in the roster *)

Lemma unresolved_no_node (subject : Person.t) (roster : list Person.t)
    (rels1 rels2 : list Relationship.t) (rel : Relationship.t) :
  targetPerson subject roster rel = None ->
  nodes subject (rels1 ++ rel :: rels2) roster
  = nodes subject (rels1 ++ rels2) roster.
Proof.
  intros Hnone. rewrite !nodes_unfold, !omap_app. cbn [omap list_omap].
  unfold nodeOf at 2. by rewrite Hnone.
Qed.

Lemma unresolved_no_entry (subject : Person.t) (roster : list Person.t)
    (rels1 rels2 : list Relationship.t) (rel : Relationship.t) :
  targetPerson subject roster rel = None ->
  getRelatedPeople subject (rels1 ++ rel :: rels2) roster
  = getRelatedPeople subject (rels1 ++ rels2) roster.
Proof.
  intros Hnone. rewrite !getRelatedPeople_omap, !omap_app. cbn [omap list_omap].
  unfold entryOf at 2. by rewrite Hnone.
Qed.

Lemma edges_lookup (subject : Person.t) (rels : list Relationship.t) (i : nat) :
  edges subject rels !! i = edgeOf subject <$> rels !! i.
Proof. unfold edges. apply (list_lookup_fmap (edgeOf subject)). Qed.

(** C1. The scenario of the specification with Bob left out of the roster:
    the relationship R1 names the counterpart P2, which the roster does not
    hold. The node list is the subject's node alone and the sidebar list is
    empty, but the edge list still holds the edge R1 from P1 to P2: the edge
    path performs no roster lookup, unlike the node loop and the sidebar
    filter. *)
Theorem absent_counterpart_scenario :
  targetPerson alice [alice] friendship = None /\
  nodes alice [friendship] [alice] = [centerNode alice] /\
  getRelatedPeople alice [friendship] [alice] = [] /\
  edges alice [friendship]
  = [NetworkEdge.mk "R1" "P1" "P2" "friend" "#667eea" "to"].
Proof. repeat split. Qed.

(** ** Duplicate counterparts *)

(** C2. Alice with two relationships to Bob, both in the roster: the node
    array holds Bob's node twice, so a Person does appear as more than one
    node; the node identifiers are not pairwise distinct, [new DataSet(nodes)]
    throws on the second one, and the diagram effect stores no network but
    takes the component down. *)
Theorem duplicate_counterpart_two_nodes :
  nodes alice [friendship; marriage] [alice; bob]
  = [centerNode alice; relatedNode bob; relatedNode bob] /\
  ~ NoDup (map NetworkNode.id (nodes alice [friendship; marriage] [alice; bob])) /\
  newDataSet NetworkNode.id (nodes alice [friendship; marriage] [alice; bob])
  = None /\
  createNetwork
    (mkWorld (mkViewState (Some alice) [friendship; marriage] [alice; bob]
                false None) true None [] false)
  = mkWorld (mkViewState (Some alice) [friendship; marriage] [alice; bob]
               false None) false None [] true.
Proof.
  split; [reflexivity|]. split; [|split; reflexivity].
  intros Hnd. vm_compute in Hnd.
  apply NoDup_cons in Hnd as [_ Hnd]. apply NoDup_cons in Hnd as [Hnotin _].
  apply Hnotin. by left.
Qed.

(** ** The center node *)

Lemma related_not_center (subject : Person.t) (roster : list Person.t)
    (rels : list Relationship.t) :
  Forall (fun n => NetworkNode.group n = "related")
    (omap (nodeOf subject roster) rels).
Proof.
  apply Forall_forall. intros n Hin.
  apply list_elem_of_omap in Hin as (rel & _ & Hnode).
  unfold nodeOf in Hnode.
  destruct (targetPerson subject roster rel) as [tp|]; simplify_eq/=.
  reflexivity.
Qed.

(** C3. For every subject (whether or not the roster holds it) and every
    relationship list, the node list is the subject's node, classified
    "center" and carrying the subject's identifier, followed by nodes that
    are all classified "related"; so exactly one node is classified
    "center". *)
Theorem exactly_one_center (subject : Person.t) (rels : list Relationship.t)
    (roster : list Person.t) :
  List.filter isCenter (nodes subject rels roster) = [centerNode subject] /\
  NetworkNode.id (centerNode subject) = Person.id subject /\
  NetworkNode.group (centerNode subject) = "center" /\
  exists rest,
    nodes subject rels roster = centerNode subject :: rest /\
    Forall (fun n => NetworkNode.group n = "related") rest.
Proof.
  pose proof (related_not_center subject roster rels) as Hrel.
  rewrite nodes_unfold. repeat split.
  - cbn [List.filter]. change (isCenter (centerNode subject)) with true.
    cbv iota. f_equal.
    induction Hrel as [|n rest Hn _ IH]; [reflexivity|].
    cbn [List.filter]. unfold isCenter at 1. by rewrite Hn.
  - by exists (omap (nodeOf subject roster) rels).
Qed.

(** ** Edges *)



(** C10. The edge list has exactly the length of the relationship list,
    whatever the roster holds: [edges] does not even take the roster. *)
Theorem edges_length (subject : Person.t) (rels : list Relationship.t) :
  length (edges subject rels) = length rels.
Proof. unfold edges. apply length_map. Qed.

(** ** Ordering *)

(** C7. The node list is the subject's node followed, in the order of the
    relationship list, by the node of the roster's person for each
    relationship whose counterpart identifier is in the roster; the edge list
    is one edge per relationship in the order of the relationship list; the
    sidebar list is one entry per relationship whose counterpart identifier
    is in the roster, in the order of the relationship list. In identifiers:
    the node identifiers are the subject's followed by the counterpart
    identifiers that the roster holds, the edge identifiers are the
    relationship identifiers, and the relationships of the sidebar entries
    are the relationship list filtered by roster membership of the
    counterpart. *)
Theorem projection_order (subject : Person.t) (rels : list Relationship.t)
    (roster : list Person.t) :
  nodes subject rels roster = Spec.nodes subject rels roster /\
  edges subject rels = Spec.edges subject rels /\
  getRelatedPeople subject rels roster = Spec.sidebar subject rels roster /\
  map NetworkNode.id (nodes subject rels roster)
  = Person.id subject
    :: filter (Spec.inRoster roster)
         (Spec.counterpart (Person.id subject) <$> rels) /\
  map NetworkEdge.id (edges subject rels) = Relationship.id <$> rels /\
  map RelatedItem.relationship (getRelatedPeople subject rels roster)
  = filter (fun rel =>
              Spec.inRoster roster (Spec.counterpart (Person.id subject) rel))
      rels.
Proof.
  split; [apply nodes_spec|]. split; [apply edges_spec|].
  split; [apply getRelatedPeople_spec|]. split; [apply nodes_ids_spec|].
  split; [apply edges_ids|apply sidebar_relationships_spec].
Qed.

(** ** Relationships that do not name the subject first *)

(** C9. When [person1Id] is not the subject's identifier (in particular when
    neither endpoint is), the counterpart resolves to [person1Id]: the edge
    of the relationship points from the subject to [person1Id], and when the
    roster holds a person with that identifier, the first such person [p]
    gets a "related" node carrying the identifier [person1Id] and [p]'s name,
    and a sidebar entry pairing the relationship with [p]. *)
Theorem foreign_relationship_attributed_to_person1 (subject : Person.t)
    (rels : list Relationship.t) (roster : list Person.t)
    (rel : Relationship.t) :
  Relationship.person1Id rel <> Person.id subject ->
  targetPersonId subject rel = Relationship.person1Id rel /\
  (forall i, rels !! i = Some rel ->
     edges subject rels !! i
     = Some {| NetworkEdge.id := Relationship.id rel;
               NetworkEdge.from := Person.id subject;
               NetworkEdge.to := Relationship.person1Id rel;
               NetworkEdge.label := Relationship.description rel;
               NetworkEdge.color := "#667eea";
               NetworkEdge.arrows := "to" |}) /\
  (forall p, rel ∈ rels ->
     Spec.lookup roster (Relationship.person1Id rel) = Some p ->
     p ∈ roster /\
     Person.id p = Relationship.person1Id rel /\
     {| NetworkNode.id := Relationship.person1Id rel;
        NetworkNode.label := Person.name p;
        NetworkNode.title := Spec.tooltip p;
        NetworkNode.color := "#4ecdc4";
        NetworkNode.group := "related" |} ∈ nodes subject rels roster /\
     {| RelatedItem.relationship := rel; RelatedItem.person := Some p |}
       ∈ getRelatedPeople subject rels roster) /\
  (rel ∈ rels ->
   Spec.inRoster roster (Relationship.person1Id rel) ->
   exists p, Spec.lookup roster (Relationship.person1Id rel) = Some p).
Proof.
  intros Hne.
  pose proof (targetPersonId_subject_not_first subject rel Hne) as Htarget.
  split; [exact Htarget|]. split; [|split].
  - intros i Hi. rewrite edges_lookup, Hi.
    cbn [fmap option_fmap option_map]. unfold edgeOf. by rewrite Htarget.
  - intros p Hin Hlookup. rewrite <- findPerson_lookup in Hlookup.
    assert (targetPerson subject roster rel = Some p) as Htp
      by (unfold targetPerson; by rewrite Htarget).
    apply findPerson_Some in Hlookup as [Hp Hid].
    split; [by apply list_elem_of_In|]. split; [exact Hid|]. split.
    + rewrite nodes_unfold. apply elem_of_cons. right.
      apply list_elem_of_omap. exists rel. split; [exact Hin|].
      unfold nodeOf. rewrite Htp. cbn [fmap option_fmap option_map].
      unfold relatedNode. by rewrite Hid, firstAlias_tooltip.
    + rewrite getRelatedPeople_omap.
      apply list_elem_of_omap. exists rel. split; [exact Hin|].
      unfold entryOf. by rewrite Htp.
  - intros _ Hin. by apply lookup_inRoster in Hin.
Qed.

Lemma foreign_relationship_attributed_to_person1_witness :
  Relationship.person1Id kinship <> Person.id alice /\
  targetPersonId alice kinship = "P3" /\
  edges alice [friendship; kinship] !! 1
  = Some (NetworkEdge.mk "R3" "P1" "P3" "sibling" "#667eea" "to") /\
  NetworkNode.mk "P3" "Carol" "Caz" "#4ecdc4" "related"
    ∈ nodes alice [friendship; kinship] [alice; bob; carol] /\
  RelatedItem.mk kinship (Some carol)
    ∈ getRelatedPeople alice [friendship; kinship] [alice; bob; carol].
Proof.
  assert (Relationship.person1Id kinship <> Person.id alice) as Hne
    by discriminate.
  destruct (foreign_relationship_attributed_to_person1 alice
              [friendship; kinship] [alice; bob; carol] kinship Hne)
    as (Htarget & Hedge & Hperson & _).
  destruct (Hperson carol ltac:(repeat constructor) eq_refl)
    as (_ & _ & Hnode & Hentry).
  split; [exact Hne|]. split; [exact Htarget|].
  split; [exact (Hedge 1 eq_refl)|]. split; [exact Hnode|exact Hentry].
Defined.

(** ** Renders without the page *)

Lemma commit_without_page (s : ViewState) (w : World) :
  mountPoint (render s) = false ->
  createNetwork (commit s w) = commit s w /\
  networkInstance (commit s w) = networkInstance w /\
  sidebar (commit s w) = [].
Proof.
  intros Hmount. unfold commit.
  destruct (tornDown w) eqn:Htorn.
  - unfold createNetwork, networkEffect, sidebar. by rewrite Htorn.
  - unfold createNetwork, networkEffect, sidebar.
    cbn [tornDown state networkRef networkInstance]. rewrite Hmount.
    split; [by destruct (person s)|]. split; [reflexivity|].
    by destruct (render s).
Qed.

(** ** The loader on an unknown identifier *)

Lemma loadData_not_found_state (id : option string)
    (rels : list Relationship.t) (roster : list Person.t) (s : ViewState) :
  truthy id = true ->
  loadData id (Resolved None rels roster) s
  = {| person := person s; relationships := relationships s;
       allPeople := allPeople s; loading := false;
       error := Some personNotFound |}.
Proof. intros Hid. unfold loadData. rewrite Hid. reflexivity. Qed.

(** C5. When the subject fetch resolves to [null], whatever the other two
    fetches returned and whatever the state was before: the person, the
    relationship list and the roster of the state are left as they were, the
    error is the "person not found" message and not the "load failed" one,
    loading is over, the view is the error panel with that message, the
    diagram has no mount point, the diagram effect builds nothing and the
    sidebar list is empty. *)
Theorem subject_not_found (id : option string) (rels : list Relationship.t)
    (roster : list Person.t) (s : ViewState) (w : World) :
  truthy id = true ->
  person (loadData id (Resolved None rels roster) s) = person s /\
  relationships (loadData id (Resolved None rels roster) s) = relationships s /\
  allPeople (loadData id (Resolved None rels roster) s) = allPeople s /\
  loading (loadData id (Resolved None rels roster) s) = false /\
  error (loadData id (Resolved None rels roster) s) = Some personNotFound /\
  personNotFound <> loadFailed /\
  render (loadData id (Resolved None rels roster) s) = ErrorView personNotFound /\
  createNetwork (commit (loadData id (Resolved None rels roster) s) w)
  = commit (loadData id (Resolved None rels roster) s) w /\
  networkInstance (commit (loadData id (Resolved None rels roster) s) w)
  = networkInstance w /\
  sidebar (commit (loadData id (Resolved None rels roster) s) w) = [].
Proof.
  intros Hid. rewrite (loadData_not_found_state id rels roster s Hid).
  assert (render {| person := person s; relationships := relationships s;
                    allPeople := allPeople s; loading := false;
                    error := Some personNotFound |}
          = ErrorView personNotFound) as Hrender.
  { unfold render. cbn [loading person error].
    by destruct (person s). }
  destruct (commit_without_page
              {| person := person s; relationships := relationships s;
                 allPeople := allPeople s; loading := false;
                 error := Some personNotFound |} w)
    as (Heffect & Hinstance & Hsidebar); [by rewrite Hrender|].
  repeat split; try reflexivity; try done.
Qed.

Lemma subject_not_found_witness :
  truthy (Some "P9") = true /\
  render (loadData (Some "P9") (Resolved None [friendship] [alice; bob])
            initialState)
  = ErrorView personNotFound.
Proof.
  split; [reflexivity|].
  apply (subject_not_found (Some "P9") [friendship] [alice; bob] initialState
           (mkWorld initialState false None [] false)).
  reflexivity.
Defined.

(** ** Clicks *)



(** ** Re-running the projection *)

Lemma forEach_push_store (subject : Person.t) (roster : list Person.t)
    (array : nat) (rels : list Relationship.t) (h : Arrays) :
  forEach rels
    (fun rel =>
       match targetPerson subject roster rel with
       | Some tp => push array (relatedNode tp)
       | None => ret tt
       end) h
  = (tt, alter (fun a => a ++ omap (nodeOf subject roster) rels) array h).
Proof.
  revert h. induction rels as [|rel rels IH]; intros h.
  - cbn [forEach omap list_omap]. unfold ret. f_equal.
    symmetry. apply list_alter_id. intros a. apply app_nil_r.
  - cbn [forEach]. unfold bind. rewrite related_nodes_cons.
    destruct (targetPerson subject roster rel) as [tp|].
    + unfold push. cbv beta iota. rewrite IH. f_equal.
      rewrite (list_alter_alter_eq (A:=list NetworkNode.t)).
      apply list_alter_ext; [|reflexivity].
      intros a _. cbn. by rewrite <- app_assoc.
    + unfold ret. cbv beta iota. apply IH.
Qed.

Lemma project_run (subject : Person.t) (rels : list Relationship.t)
    (roster : list Person.t) (h : Arrays) :
  project subject rels roster h
  = ({| projNodes := nodes subject rels roster;
        projEdges := edges subject rels;
        projSidebar := getRelatedPeople subject rels roster |},
     h ++ [nodes subject rels roster]).
Proof.
  unfold project, bind, newArray. rewrite forEach_push_store.
  unfold readArray, ret.
  rewrite (alter_app_r_alt _ h [[centerNode subject]] (length h)) by lia.
  rewrite Nat.sub_diag. cbn [alter list_alter].
  rewrite (list_lookup_middle h []) by reflexivity. cbn [default].
  by rewrite nodes_unfold.
Qed.

(** C8. Whatever arrays earlier runs have left in the store, a run of the
    projection fills a node array of its own and changes none that was
    there; a second run on the store left by the first therefore yields the
    same node list, edge list and sidebar list as the first, and these are
    the lists fixed by the subject, the relationship list and the roster:
    the subject's node and the nodes of the roster-present counterparts, one
    edge per relationship, one entry per roster-present counterpart. *)
Theorem projection_rerun_identical (subject : Person.t)
    (rels : list Relationship.t) (roster : list Person.t) (h : Arrays) :
  fst (project subject rels roster (snd (project subject rels roster h)))
  = fst (project subject rels roster h) /\
  fst (project subject rels roster h)
  = {| projNodes := Spec.nodes subject rels roster;
       projEdges := Spec.edges subject rels;
       projSidebar := Spec.sidebar subject rels roster |} /\
  h `prefix_of` snd (project subject rels roster h) /\
  snd (project subject rels roster h) `prefix_of`
    snd (project subject rels roster (snd (project subject rels roster h))).
Proof.
  rewrite !project_run. cbn [fst snd].
  rewrite nodes_spec, edges_spec, getRelatedPeople_spec.
  repeat split; by apply prefix_app_r.
Qed.

(** ** The diagram effect *)



(** ** The loader on a known identifier, on a failed fetch, and without an
    identifier *)



(** X2. A load with an identifier whose fetches reject ends loading with the
    "load failed" message and leaves the person, the relationship list and
    the roster of the state as they were; the view is the error panel with
    that message even when an earlier load had stored a person, the diagram
    effect builds nothing and no sidebar list is shown. *)
Theorem load_rejected_shows_error (id : option string) (s : ViewState)
    (w : World) :
  truthy id = true ->
  loadData id Rejected s
  = mkViewState (person s) (relationships s) (allPeople s) false
      (Some loadFailed) /\
  render (loadData id Rejected s) = ErrorView loadFailed /\
  createNetwork (commit (loadData id Rejected s) w)
  = commit (loadData id Rejected s) w /\
  sidebar (commit (loadData id Rejected s) w) = [].
Proof.
  intros Hid. unfold loadData. rewrite Hid.
  change (loadDataSettle Rejected (loadDataBegin s))
    with (mkViewState (person s) (relationships s) (allPeople s) false
            (Some loadFailed)).
  assert (render (mkViewState (person s) (relationships s) (allPeople s) false
                    (Some loadFailed)) = ErrorView loadFailed) as Hrender.
  { unfold render. cbn [loading person error]. by destruct (person s). }
  destruct (commit_without_page
              (mkViewState (person s) (relationships s) (allPeople s) false
                 (Some loadFailed)) w)
    as (Heffect & _ & Hsidebar); [by rewrite Hrender|].
  split; [reflexivity|]. split; [exact Hrender|]. by split.
Qed.

Lemma load_rejected_shows_error_witness :
  truthy (Some "P1") = true /\
  render (loadData (Some "P1") Rejected
            (mkViewState (Some alice) [friendship] [alice; bob] false None))
  = ErrorView loadFailed.
Proof.
  split; [reflexivity|].
  apply (load_rejected_shows_error (Some "P1")
           (mkViewState (Some alice) [friendship] [alice; bob] false None)
           (mkWorld initialState false None [] false)).
  reflexivity.
Defined.

(** X3. Without an identifier (the route parameter is [undefined] or the
    empty string) [loadData] returns before touching the state, whatever the
    fetches would give; any number of such loads after the first mount leaves
    the spinner on the screen. *)
Theorem load_without_id_keeps_spinner (id : option string) :
  truthy id = false ->
  (forall o s, loadData id o s = s) /\
  (forall os,
     render (fold_left (fun s o => loadData id o s) os initialState)
     = LoadingView).
Proof.
  intros Hid.
  assert (forall o s, loadData id o s = s) as Hskip
    by (intros o s; unfold loadData; by rewrite Hid).
  split; [exact Hskip|].
  intros os.
  assert (forall s, fold_left (fun s o => loadData id o s) os s = s) as ->.
  { induction os as [|o os IH]; intros s; [reflexivity|].
    cbn [fold_left]. by rewrite Hskip, IH. }
  reflexivity.
Qed.

Lemma load_without_id_keeps_spinner_witness :
  truthy (Some "") = false /\
  render (fold_left (fun s o => loadData (Some "") o s)
            [Resolved (Some alice) [friendship] [alice; bob]; Rejected]
            initialState)
  = LoadingView.
Proof.
  split; [reflexivity|].
  exact (proj2 (load_without_id_keeps_spinner (Some "") eq_refl)
           [Resolved (Some alice) [friendship] [alice; bob]; Rejected]).
Defined.

(** ** Histories of overlapping loads *)

Lemma runLoads_snoc (es : list LoadEvent) (e : LoadEvent) (s : ViewState) :
  runLoads (es ++ [e]) s = loadStep (runLoads es s) e.
Proof. unfold runLoads. by rewrite fold_left_app. Qed.

Lemma runLoads_app (es1 es2 : list LoadEvent) (s : ViewState) :
  runLoads (es1 ++ es2) s = runLoads es2 (runLoads es1 s).
Proof. unfold runLoads. by rewrite fold_left_app. Qed.

(** X4. In every history from the first mount, whatever the interleaving of
    begun and settled loads, the person, the relationship list and the roster
    of the state come from one and the same settled response: either no
    person is stored and both lists are empty, or some load of the history
    resolved with exactly the stored person, relationship list and roster. *)
Theorem loaded_data_from_one_response (es : list LoadEvent) :
  match person (runLoads es initialState) with
  | None =>
      relationships (runLoads es initialState) = [] /\
      allPeople (runLoads es initialState) = []
  | Some p =>
      Settle (Resolved (Some p) (relationships (runLoads es initialState))
                (allPeople (runLoads es initialState))) ∈ es
  end.
Proof.
  induction es as [|e es IH] using rev_ind; [by split|].
  rewrite runLoads_snoc.
  destruct e as [|[[q|] rels roster|]]; cbn [loadStep].
  - change (person (loadDataBegin (runLoads es initialState)))
      with (person (runLoads es initialState)).
    destruct (person (runLoads es initialState)); [|exact IH].
    apply elem_of_app. by left.
  - cbn. apply elem_of_app. right. by apply list_elem_of_singleton.
  - change (person (loadDataSettle (Resolved None rels roster)
                      (runLoads es initialState)))
      with (person (runLoads es initialState)).
    destruct (person (runLoads es initialState)); [|exact IH].
    apply elem_of_app. by left.
  - change (person (loadDataSettle Rejected (runLoads es initialState)))
      with (person (runLoads es initialState)).
    destruct (person (runLoads es initialState)); [|exact IH].
    apply elem_of_app. by left.
Qed.

(** X5. In every history from the first mount the error cell holds nothing,
    the "person not found" message or the "load failed" message, so it is
    never an empty string; the message of a rendered error panel is one of
    the two, and once a load has settled last the spinner is gone. *)
Theorem error_cell_values (es : list LoadEvent) :
  (error (runLoads es initialState) = None \/
   error (runLoads es initialState) = Some personNotFound \/
   error (runLoads es initialState) = Some loadFailed) /\
  (truthy (error (runLoads es initialState)) = true <->
   error (runLoads es initialState) <> None) /\
  (forall m, render (runLoads es initialState) = ErrorView m ->
     m = personNotFound \/ m = loadFailed) /\
  (forall o, render (runLoads (es ++ [Settle o]) initialState) <> LoadingView).
Proof.
  assert (error (runLoads es initialState) = None \/
          error (runLoads es initialState) = Some personNotFound \/
          error (runLoads es initialState) = Some loadFailed) as Herr.
  { induction es as [|e es IH] using rev_ind; [by left|].
    rewrite runLoads_snoc.
    destruct e as [|[[q|] rels roster|]]; cbn [loadStep].
    - by left.
    - exact IH.
    - right. by left.
    - right. by right. }
  split; [exact Herr|]. split; [|split].
  - destruct Herr as [->|[->| ->]]; by split.
  - intros m. unfold render.
    destruct (loading (runLoads es initialState)); [discriminate|].
    destruct (person (runLoads es initialState));
      destruct Herr as [->|[->| ->]]; cbn; intros Hm; simplify_eq;
      by (left + right).
  - intros o. rewrite runLoads_snoc. cbn [loadStep]. unfold render.
    assert (loading (loadDataSettle o (runLoads es initialState)) = false)
      as -> by (by destruct o as [[?|] ? ?|]).
    by repeat case_match.
Qed.

(** X6. A load that resolves with a person does not clear the error: when it
    settles right after another load has failed (two loads in flight, the
    failed one settling first), the new person and lists are stored but the
    view stays the error panel with the failed load's message. *)
Theorem success_after_failure_keeps_error (es : list LoadEvent)
    (s : ViewState) (p : Person.t) (rels rels0 : list Relationship.t)
    (roster roster0 : list Person.t) :
  (person (runLoads (es ++ [Settle Rejected;
                            Settle (Resolved (Some p) rels roster)]) s)
   = Some p /\
   render (runLoads (es ++ [Settle Rejected;
                            Settle (Resolved (Some p) rels roster)]) s)
   = ErrorView loadFailed) /\
  (person (runLoads (es ++ [Settle (Resolved None rels0 roster0);
                            Settle (Resolved (Some p) rels roster)]) s)
   = Some p /\
   render (runLoads (es ++ [Settle (Resolved None rels0 roster0);
                            Settle (Resolved (Some p) rels roster)]) s)
   = ErrorView personNotFound).
Proof. rewrite !runLoads_app. repeat split. Qed.

(** ** What the node list holds *)

Lemma findPerson_elem_of (roster : list Person.t) (target : string)
    (p : Person.t) :
  findPerson roster target = Some p -> p ∈ roster /\ Person.id p = target.
Proof.
  intros Hfind. apply findPerson_Some in Hfind as [Hin Hid].
  split; [by apply list_elem_of_In|exact Hid].
Qed.

(** X7. Every node of the node list is the subject's node or the node of a
    person of the roster whose identifier is the counterpart identifier of
    one of the relationships: the projection invents no node. *)
Theorem nodes_sound (subject : Person.t) (rels : list Relationship.t)
    (roster : list Person.t) (n : NetworkNode.t) :
  n ∈ nodes subject rels roster ->
  n = centerNode subject \/
  exists rel p,
    rel ∈ rels /\ p ∈ roster /\
    Person.id p = targetPersonId subject rel /\ n = relatedNode p.
Proof.
  rewrite nodes_unfold. intros Hin.
  apply elem_of_cons in Hin as [->|Hin]; [by left|]. right.
  apply list_elem_of_omap in Hin as (rel & Hrel & Hnode).
  unfold nodeOf, targetPerson in Hnode.
  destruct (findPerson roster (targetPersonId subject rel)) as [p|] eqn:Hfind;
    simplify_eq/=.
  apply findPerson_elem_of in Hfind as [Hp Hid].
  by exists rel, p.
Qed.

Lemma nodes_sound_witness :
  relatedNode bob ∈ nodes alice [friendship] [alice; bob] /\
  (relatedNode bob = centerNode alice \/
   exists rel p,
     rel ∈ [friendship] /\ p ∈ [alice; bob] /\
     Person.id p = targetPersonId alice rel /\ relatedNode bob = relatedNode p).
Proof.
  assert (relatedNode bob ∈ nodes alice [friendship] [alice; bob]) as Hin
    by (right; left).
  split; [exact Hin|].
  exact (nodes_sound alice [friendship] [alice; bob] (relatedNode bob) Hin).
Defined.

Lemma elem_of_filter_found (roster : list Person.t) (t : string)
    (ts : list string) :
  t ∈ List.filter (fun t => bool_decide (is_Some (findPerson roster t))) ts
  <-> t ∈ ts /\ is_Some (findPerson roster t).
Proof.
  rewrite !list_elem_of_In, filter_In.
  by rewrite bool_decide_eq_true.
Qed.

(** X8. Every edge starts at a node of the node list, the subject's. Its
    end is the identifier of a node of the node list exactly when the roster
    holds a person with that identifier or the end is the subject itself;
    otherwise the edge points at no node. *)
Theorem edge_endpoints_among_nodes (subject : Person.t)
    (rels : list Relationship.t) (roster : list Person.t) (e : NetworkEdge.t) :
  e ∈ edges subject rels ->
  NetworkEdge.from e ∈ map NetworkNode.id (nodes subject rels roster) /\
  (NetworkEdge.to e ∈ map NetworkNode.id (nodes subject rels roster) <->
   is_Some (findPerson roster (NetworkEdge.to e)) \/
   NetworkEdge.to e = Person.id subject).
Proof.
  intros He. unfold edges in He.
  apply list_elem_of_In, in_map_iff in He as (rel & <- & Hrel).
  apply list_elem_of_In in Hrel.
  rewrite nodes_ids. cbn [NetworkEdge.from NetworkEdge.to edgeOf].
  split; [by left|].
  rewrite elem_of_cons, elem_of_filter_found. split.
  - intros [Heq|[_ Hsome]]; [by right|by left].
  - intros [Hsome|Heq]; [right|by left].
    split; [|exact Hsome].
    apply list_elem_of_In, in_map. by apply list_elem_of_In.
Qed.

Lemma edge_endpoints_among_nodes_witness :
  edgeOf alice friendship ∈ edges alice [friendship] /\
  ~ NetworkEdge.to (edgeOf alice friendship)
      ∈ map NetworkNode.id (nodes alice [friendship] [alice]).
Proof.
  assert (edgeOf alice friendship ∈ edges alice [friendship]) as He by left.
  split; [exact He|].
  intros Hto.
  apply (edge_endpoints_among_nodes alice [friendship] [alice] _ He) in Hto
    as [[p Hp]|Hq]; discriminate.
Defined.

(** X9. The node list and the sidebar list show the same people in the same
    order: the nodes after the subject's are the nodes of the persons of the
    sidebar entries, one each, so the node list has one node more than the
    sidebar has entries, and neither has more than the relationship list
    allows. *)
Theorem nodes_match_sidebar (subject : Person.t) (rels : list Relationship.t)
    (roster : list Person.t) :
  nodes subject rels roster
  = centerNode subject
    :: omap (fun item => relatedNode <$> RelatedItem.person item)
         (getRelatedPeople subject rels roster) /\
  length (nodes subject rels roster)
  = S (length (getRelatedPeople subject rels roster)) /\
  length (getRelatedPeople subject rels roster) <= length rels.
Proof.
  assert (omap (nodeOf subject roster) rels
          = omap (fun item => relatedNode <$> RelatedItem.person item)
              (getRelatedPeople subject rels roster)
          /\ length (omap (nodeOf subject roster) rels)
             = length (getRelatedPeople subject rels roster)
          /\ length (getRelatedPeople subject rels roster) <= length rels)
    as (Hsame & Hlen & Hle).
  { induction rels as [|rel rels (IH1 & IH2 & IH3)]; [by repeat split|].
    rewrite getRelatedPeople_cons, related_nodes_cons.
    destruct (targetPerson subject roster rel) as [tp|];
      cbn [fmap option_fmap option_map omap list_omap RelatedItem.person length];
      rewrite <- ?IH1, ?IH2; (split; [reflexivity|]); split; lia. }
  rewrite nodes_unfold. cbn [length]. rewrite Hsame at 1.
  by rewrite Hlen.
Qed.

(** ** The roster *)

(** X11. The roster lookup returns the first person carrying the wanted
    identifier: it answers [p] exactly when the roster splits into people
    with other identifiers, then [p] with the wanted identifier, then
    anything, so later persons with the same identifier are never used. *)
Theorem findPerson_first_match (roster : list Person.t) (target : string)
    (p : Person.t) :
  findPerson roster target = Some p <->
  exists before after,
    roster = before ++ p :: after /\
    Person.id p = target /\
    Forall (fun q => Person.id q <> target) before.
Proof.
  unfold findPerson. split.
  - induction roster as [|q roster IH]; [discriminate|]. cbn [find].
    destruct (String.eqb (Person.id q) target) eqn:Heq.
    + intros [= ->]. apply String.eqb_eq in Heq.
      by exists [], roster.
    + intros Hfind. destruct (IH Hfind) as (before & after & -> & Hid & Hall).
      apply String.eqb_neq in Heq.
      exists (q :: before), after. repeat split; [exact Hid|].
      by constructor.
  - intros (before & after & -> & Hid & Hall).
    induction Hall as [|q before Hq _ IH]; cbn [app find].
    + apply String.eqb_eq in Hid. by rewrite Hid.
    + apply String.eqb_neq in Hq. by rewrite Hq.
Qed.

Lemma findPerson_app_stable (roster more : list Person.t) (target : string)
    (p : Person.t) :
  findPerson roster target = Some p ->
  findPerson (roster ++ more) target = Some p.
Proof.
  unfold findPerson. induction roster as [|q roster IH]; [discriminate|].
  cbn [app find]. by destruct (String.eqb (Person.id q) target).
Qed.

(** X10. Adding people at the end of the roster never removes or changes
    what is already shown: the nodes and the sidebar entries obtained with
    the shorter roster appear, in the same order, among those obtained with
    the longer one. *)
Theorem roster_extension_keeps_nodes (subject : Person.t)
    (rels : list Relationship.t) (roster more : list Person.t) :
  nodes subject rels roster `sublist_of` nodes subject rels (roster ++ more) /\
  getRelatedPeople subject rels roster
    `sublist_of` getRelatedPeople subject rels (roster ++ more).
Proof.
  rewrite !nodes_unfold. split.
  - apply sublist_skip.
    induction rels as [|rel rels IH]; [constructor|].
    rewrite !related_nodes_cons. unfold targetPerson.
    destruct (findPerson roster (targetPersonId subject rel)) as [p|] eqn:Hfind.
    + rewrite (findPerson_app_stable _ more _ _ Hfind). by apply sublist_skip.
    + destruct (findPerson (roster ++ more) (targetPersonId subject rel));
        [by apply sublist_cons|exact IH].
  - induction rels as [|rel rels IH]; [constructor|].
    rewrite !getRelatedPeople_cons. unfold targetPerson.
    destruct (findPerson roster (targetPersonId subject rel)) as [p|] eqn:Hfind.
    + rewrite (findPerson_app_stable _ more _ _ Hfind). by apply sublist_skip.
    + destruct (findPerson (roster ++ more) (targetPersonId subject rel));
        [by apply sublist_cons|exact IH].
Qed.

(** ** Relationships hidden from the diagram *)

(** X14. A relationship whose counterpart identifier no person of the
    roster carries contributes no node and no sidebar entry: the node list
    and the sidebar list are those of the relationship list without it,
    wherever it stands in the list. *)
Theorem unresolved_relationship_hidden (subject : Person.t)
    (roster : list Person.t) (rels1 rels2 : list Relationship.t)
    (rel : Relationship.t) :
  (forall p, p ∈ roster -> Person.id p <> targetPersonId subject rel) ->
  nodes subject (rels1 ++ rel :: rels2) roster
  = nodes subject (rels1 ++ rels2) roster /\
  getRelatedPeople subject (rels1 ++ rel :: rels2) roster
  = getRelatedPeople subject (rels1 ++ rels2) roster.
Proof.
  intros Habsent.
  assert (targetPerson subject roster rel = None) as Hnone.
  { apply findPerson_None. intros p Hin. apply Habsent.
    by apply list_elem_of_In. }
  split; [by apply unresolved_no_node|by apply unresolved_no_entry].
Qed.

Lemma unresolved_relationship_hidden_witness :
  (forall p, p ∈ [alice; bob] -> Person.id p <> targetPersonId alice kinship) /\
  nodes alice ([friendship] ++ kinship :: [marriage]) [alice; bob]
  = nodes alice ([friendship] ++ [marriage]) [alice; bob].
Proof.
  assert (forall p, p ∈ [alice; bob] ->
                    Person.id p <> targetPersonId alice kinship) as Habsent.
  { intros p Hp.
    apply elem_of_cons in Hp as [->|Hp]; [discriminate|].
    apply list_elem_of_singleton in Hp as ->. discriminate. }
  split; [exact Habsent|].
  exact (proj1 (unresolved_relationship_hidden alice [alice; bob]
                  [friendship] [marriage] kinship Habsent)).
Defined.

(** X13. The sidebar card shows the "no relationship data" placeholder
    exactly when no relationship of the list has its counterpart in the
    roster, however many relationships and edges there are; otherwise it
    shows the list of all entries. *)
Theorem placeholder_iff_nothing_resolved (subject : Person.t)
    (rels : list Relationship.t) (roster : list Person.t) :
  (sidebarContent (getRelatedPeople subject rels roster) = NoRelationData <->
   Forall (fun rel => targetPerson subject roster rel = None) rels) /\
  (sidebarContent (getRelatedPeople subject rels roster) = NoRelationData \/
   sidebarContent (getRelatedPeople subject rels roster)
   = RelatedList (getRelatedPeople subject rels roster)).
Proof.
  assert (getRelatedPeople subject rels roster = [] <->
          Forall (fun rel => targetPerson subject roster rel = None) rels)
    as Hempty.
  { induction rels as [|rel rels IH]; [by split|].
    rewrite getRelatedPeople_cons, Forall_cons.
    destruct (targetPerson subject roster rel) as [p|].
    - split; [discriminate|]. by intros [? _].
    - rewrite IH. by split; [|intros [_ ?]]. }
  unfold sidebarContent.
  destruct (getRelatedPeople subject rels roster) as [|item items];
    cbn [length Nat.ltb Nat.leb].
  - split; [|by left]. split; [intros _; by apply Hempty|done].
  - split; [|by right]. split; [discriminate|].
    intros Hall. by apply Hempty in Hall.
Qed.

(** ** Relationships and the subject *)

Lemma targetPersonId_endpoint (subject : Person.t) (rel : Relationship.t) :
  targetPersonId subject rel = Relationship.person1Id rel \/
  targetPersonId subject rel = Relationship.person2Id rel.
Proof.
  unfold targetPersonId.
  destruct (String.eqb (Relationship.person1Id rel) (Person.id subject));
    by (left + right).
Qed.

Lemma targetPersonId_other_end (subject : Person.t) (rel : Relationship.t) :
  (Relationship.person1Id rel = Person.id subject /\
   Relationship.person2Id rel <> Person.id subject) \/
  (Relationship.person2Id rel = Person.id subject /\
   Relationship.person1Id rel <> Person.id subject) ->
  targetPersonId subject rel <> Person.id subject.
Proof.
  intros [[H1 H2]|[H2 H1]].
  - by rewrite targetPersonId_subject_first.
  - by rewrite targetPersonId_subject_not_first.
Qed.

(** X12. When every relationship names the subject at exactly one of its
    two ends, no edge is a loop, the subject's node is the only node carrying
    the subject's identifier, and a click on any other node of the diagram
    requests navigation to that node's page. *)
Theorem one_sided_relationships (subject : Person.t)
    (rels : list Relationship.t) (roster : list Person.t) :
  Forall (fun rel =>
            (Relationship.person1Id rel = Person.id subject /\
             Relationship.person2Id rel <> Person.id subject) \/
            (Relationship.person2Id rel = Person.id subject /\
             Relationship.person1Id rel <> Person.id subject)) rels ->
  Forall (fun e => NetworkEdge.to e <> NetworkEdge.from e)
    (edges subject rels) /\
  Forall (fun n =>
            NetworkNode.id n <> Person.id subject /\
            forall log,
              onClick subject (mkClickParams [NetworkNode.id n]) log
              = log ++ [personPath (NetworkNode.id n)])
    (tail (nodes subject rels roster)).
Proof.
  intros Hone. split.
  - unfold edges. apply Forall_forall. intros e He.
    apply list_elem_of_In, in_map_iff in He as (rel & <- & Hrel).
    cbn [edgeOf NetworkEdge.to NetworkEdge.from].
    apply targetPersonId_other_end.
    by apply (proj1 (Forall_forall _ _) Hone), list_elem_of_In.
  - rewrite nodes_unfold. cbn [tail].
    apply Forall_forall. intros n Hn.
    apply list_elem_of_omap in Hn as (rel & Hrel & Hnode).
    unfold nodeOf, targetPerson in Hnode.
    destruct (findPerson roster (targetPersonId subject rel)) as [p|] eqn:Hfind;
      simplify_eq/=.
    apply findPerson_Some in Hfind as [_ Hid].
    assert (Person.id p <> Person.id subject) as Hne.
    { rewrite Hid. apply targetPersonId_other_end.
      by apply (proj1 (Forall_forall _ _) Hone). }
    split; [exact Hne|]. intros log. unfold onClick. cbn [clickNodes].
    apply String.eqb_neq in Hne. by rewrite Hne.
Qed.

Lemma one_sided_relationships_witness :
  Forall (fun rel =>
            (Relationship.person1Id rel = Person.id alice /\
             Relationship.person2Id rel <> Person.id alice) \/
            (Relationship.person2Id rel = Person.id alice /\
             Relationship.person1Id rel <> Person.id alice))
    [friendship; marriage] /\
  Forall (fun e => NetworkEdge.to e <> NetworkEdge.from e)
    (edges alice [friendship; marriage]).
Proof.
  assert (Forall (fun rel =>
            (Relationship.person1Id rel = Person.id alice /\
             Relationship.person2Id rel <> Person.id alice) \/
            (Relationship.person2Id rel = Person.id alice /\
             Relationship.person1Id rel <> Person.id alice))
            [friendship; marriage]) as Hone.
  { apply Forall_cons. split; [left; by split|].
    apply Forall_cons. split; [right; by split|]. constructor. }
  split; [exact Hone|].
  exact (proj1 (one_sided_relationships alice [friendship; marriage]
                  [alice; bob] Hone)).
Defined.




